(** * Storage Dehogger: the file-tree sizing engine, the size formatter
      and the sorted view adapter of [main.py], embedded in Rocq. *)

From Stdlib Require Import ZArith List String Ascii Bool Lia.
From Stdlib Require Import DecimalString SpecFloat.
From Stdlib Require DecimalZ DecimalPos OrdersEx.
Import ListNotations.

Local Open Scope string_scope.
Local Open Scope Z_scope.

#[local] Set Warnings "-register-all".

(** ** Exceptions and results *)

(** The exception classes the program can meet.  [PermissionError],
    [FileNotFoundError] and [NotADirectoryError] are subclasses of
    [OSError]; [OSError errno] stands for every other operating-system
    error (e.g. [EIO]). *)
Inductive Exn : Type :=
| PermissionError
| FileNotFoundError
| NotADirectoryError
| OSError (errno : Z)
| AttributeError
| ZeroDivisionError
| OverflowError.

(** [except PermissionError] catches exactly that class. *)
Definition is_PermissionError (e : Exn) : bool :=
  match e with
  | PermissionError => true
  | _ => false
  end.

(** A Python computation either returns a value or raises. *)
Inductive Result (A : Type) : Type :=
| Ok (a : A)
| Raise (e : Exn).
Arguments Ok {A} a.
Arguments Raise {A} e.

Definition bind {A B : Type} (r : Result A) (k : A -> Result B) : Result B :=
  match r with
  | Ok a => k a
  | Raise e => Raise e
  end.

Notation "x <- r ;; k" := (bind r (fun x => k))
  (at level 61, r at next level, right associativity).

(** ** Node model: classes [File] and [Folder] *)

(** A reference to a Python object (the object's identity).  The absent
    reference [None] is [None : option ObjRef]. *)
Definition ObjRef : Type := positive.

(** [File(parent, path, size)] and [Folder(parent, path, size, children)].
    Sizes are Python integers, hence unbounded. *)
Inductive Node : Type :=
| File (parent : option ObjRef) (path : string) (size : Z)
| Folder (parent : option ObjRef) (path : string) (size : Z)
         (children : list Node).

(** Induction on trees: the children of a folder satisfy the property. *)
Fixpoint Node_tree_ind (P : Node -> Prop)
  (HFile : forall p name s, P (File p name s))
  (HFolder : forall p name s cs, Forall P cs -> P (Folder p name s cs))
  (n : Node) {struct n} : P n :=
  match n with
  | File p name s => HFile p name s
  | Folder p name s cs =>
      HFolder p name s cs
        ((fix all (l : list Node) : Forall P l :=
            match l with
            | [] => Forall_nil P
            | c :: l' =>
                Forall_cons c (Node_tree_ind P HFile HFolder c) (all l')
            end) cs)
  end.

Definition parent (n : Node) : option ObjRef :=
  match n with
  | File p _ _ => p
  | Folder p _ _ _ => p
  end.

Definition path (n : Node) : string :=
  match n with
  | File _ p _ => p
  | Folder _ p _ _ => p
  end.

Definition size (n : Node) : Z :=
  match n with
  | File _ _ s => s
  | Folder _ _ s _ => s
  end.

(** Attribute [children]: only [Folder] objects have it; looking it up on
    a [File] raises [AttributeError]. *)
Definition children (n : Node) : Result (list Node) :=
  match n with
  | File _ _ _ => Raise AttributeError
  | Folder _ _ _ cs => Ok cs
  end.

(** [isinstance(node, Folder)] *)
Definition isinstance_Folder (n : Node) : bool :=
  match n with
  | File _ _ _ => false
  | Folder _ _ _ _ => true
  end.

(** ** The file system as [os.scandir] shows it *)

(** A directory entry carries the outcome of each call the builder makes
    on it: [entry.is_file(follow_symlinks=False)],
    [entry.stat().st_size], [entry.is_dir(follow_symlinks=False)], and
    what [os.scandir(entry.path)] yields.  A scan is the sequence of
    entries the iterator hands out; it ends normally ([ScanEnd]) or by
    raising ([ScanRaise]): a scan that is [ScanRaise e] from the start is
    an [os.scandir] call that raises [e].  Symbolic links are not
    followed, so the structure is a finite tree. *)
Inductive DirEntry : Type :=
| mkDirEntry (name : string)
             (is_file : Result bool)
             (st_size : Result Z)
             (is_dir : Result bool)
             (scandir : Scan)
with Scan : Type :=
| ScanEnd
| ScanRaise (e : Exn)
| ScanNext (entry : DirEntry) (rest : Scan).

Scheme DirEntry_Scan_ind := Induction for DirEntry Sort Prop
  with Scan_DirEntry_ind := Induction for Scan Sort Prop.
Combined Scheme DirEntry_Scan_mutind from DirEntry_Scan_ind, Scan_DirEntry_ind.

(** A regular file of the given size. *)
Definition regular_file (name : string) (sz : Z) : DirEntry :=
  mkDirEntry name (Ok true) (Ok sz) (Ok false) (ScanRaise NotADirectoryError).

(** A directory with the given scan. *)
Definition directory (name : string) (s : Scan) : DirEntry :=
  mkDirEntry name (Ok false) (Ok 4096) (Ok true) s.

(** The entries [es] followed by the scan [s]. *)
Fixpoint entries_then (es : list DirEntry) (s : Scan) : Scan :=
  match es with
  | [] => s
  | e :: es' => ScanNext e (entries_then es' s)
  end.

(** ** Tree builder *)

(** [get_file_tree(name, root, parent)], lines 33-51.  The path [root] is
    represented by what [os.scandir(root)] yields.  The [try] block of
    the loop body computes the new [(total, files)]; an exception raised
    inside it leaves both untouched, since [total += ...] and
    [files.append(...)] come after every call that can raise. *)
Fixpoint get_file_tree (name : string) (root : Scan) (parent : option ObjRef)
  {struct root} : Result Node :=
  (fix for_entry (it : Scan) (total : Z) (files : list Node) {struct it}
     : Result Node :=
     match it with
     | ScanEnd => Ok (Folder parent name total files)
     | ScanRaise e => Raise e
     | ScanNext (mkDirEntry entry_name is_file st_size is_dir entry_path) rest =>
         let try_block : Result (Z * list Node) :=
           f <- is_file ;;
           if f then
             size <- st_size ;;
             Ok (total + size, (files ++ [File parent entry_name size])%list)
           else
             d <- is_dir ;;
             if d then
               folder <- get_file_tree entry_name entry_path parent ;;
               Ok (total + size folder, (files ++ [folder])%list)
             else Ok (total, files)
         in
         match try_block with
         | Ok (total', files') => for_entry rest total' files'
         | Raise e =>
             if is_PermissionError e then for_entry rest total files
             else Raise e
         end
     end) root 0 [].

(** [tree = get_file_tree(root_path, root_path, None)], line 183 of
    [AppFrame.__init__]; no handler surrounds the call. *)
Definition AppFrame_tree (root_path : string) (fs : Scan) : Result Node :=
  get_file_tree root_path fs None.

(** *** The loop seen from outside

    The [try] block and the [for] loop of [get_file_tree] as functions of
    their own, for stating properties of single iterations. *)

(** Lines 40-47: the [try] block run on one entry with the current
    [total] and [files]. *)
Definition try_block (parent : option ObjRef) (entry : DirEntry)
  (total : Z) (files : list Node) : Result (Z * list Node) :=
  match entry with
  | mkDirEntry entry_name is_file st_size is_dir entry_path =>
      f <- is_file ;;
      if f then
        size <- st_size ;;
        Ok (total + size, (files ++ [File parent entry_name size])%list)
      else
        d <- is_dir ;;
        if d then
          folder <- get_file_tree entry_name entry_path parent ;;
          Ok (total + size folder, (files ++ [folder])%list)
        else Ok (total, files)
  end.

(** Lines 38-51: the loop from the current position [it] of the iterator,
    then the [return]. *)
Fixpoint for_entry (name : string) (parent : option ObjRef) (it : Scan)
  (total : Z) (files : list Node) {struct it} : Result Node :=
  match it with
  | ScanEnd => Ok (Folder parent name total files)
  | ScanRaise e => Raise e
  | ScanNext entry rest =>
      match try_block parent entry total files with
      | Ok (total', files') => for_entry name parent rest total' files'
      | Raise e =>
          if is_PermissionError e then for_entry name parent rest total files
          else Raise e
      end
  end.


(** The exception, if any, with which the [try] block leaves an entry. *)
Definition try_error (parent : option ObjRef) (entry : DirEntry)
  : option Exn :=
  match try_block parent entry 0 [] with
  | Ok _ => None
  | Raise e => Some e
  end.

(** ** Size formatter: [FileSizeRenderer.pretty_print_size] *)

(** Python floats are IEEE 754 binary64 numbers: [spec_float] of the
    Standard Library with precision 53 and maximal exponent 1024. *)
Definition prec : Z := 53.
Definition emax : Z := 1024.

(** An integer as the exact (not yet rounded) operand of a division. *)
Definition exact_int (n : Z) : spec_float :=
  match n with
  | Z0 => S754_zero false
  | Zpos p => S754_finite false p 0
  | Zneg p => S754_finite true p 0
  end.

(** [float(n)]: the nearest binary64 number. *)
Definition float_of_int (n : Z) : spec_float :=
  binary_normalize prec emax n 0 false.

(** [a / b] on two integers: the binary64 number nearest to the exact
    quotient (one rounding), [ZeroDivisionError] for [b = 0] and
    [OverflowError] when the quotient is out of range. *)
Definition int_truediv (a b : Z) : Result spec_float :=
  if b =? 0 then Raise ZeroDivisionError
  else
    match SFdiv prec emax (exact_int a) (exact_int b) with
    | S754_infinity _ => Raise OverflowError
    | q => Ok q
    end.

(** [x / n] on a float and an integer: [n] is converted first. *)
Definition float_truediv (x : spec_float) (n : Z) : Result spec_float :=
  if n =? 0 then Raise ZeroDivisionError
  else Ok (SFdiv prec emax x (float_of_int n)).

(** [x < n] on a float and an integer constant that is a float. *)
Definition float_lt_int (x : spec_float) (n : Z) : bool :=
  SFltb x (float_of_int n).

(** [str(n)] for an integer. *)
Definition str_int (n : Z) : string :=
  NilZero.string_of_int (Z.to_int n).

(** The quotient of [n] by [d] rounded to the nearest integer, ties to
    even. *)
Definition round_half_even (n d : Z) : Z :=
  let q := n / d in
  match 2 * (n mod d) ?= d with
  | Lt => q
  | Gt => q + 1
  | Eq => if Z.even q then q else q + 1
  end.

(** Two decimal digits, zero padded. *)
Definition two_digits (n : Z) : string :=
  if n <? 10 then "0" ++ str_int n else str_int n.

(** [f'{x:.2f}']: the exact value of [x] rounded to hundredths (ties to
    even), printed with two decimals. *)
Definition format_2f (x : spec_float) : string :=
  match x with
  | S754_zero s => (if s then "-0.00" else "0.00")
  | S754_infinity s => (if s then "-inf" else "inf")
  | S754_nan => "nan"
  | S754_finite s m e =>
      let hundredths :=
        if 0 <=? e then Zpos m * 2 ^ e * 100
        else round_half_even (Zpos m * 100) (2 ^ (- e)) in
      (if s then "-" else "")
        ++ str_int (hundredths / 100) ++ "." ++ two_digits (hundredths mod 100)
  end.

(** [pretty_print_size(self)], lines 77-99, as a function of
    [self.value].  The result [None] is Python's [None], returned when
    control runs off the end of the function. *)
Definition pretty_print_size (value : option Z) : Result (option string) :=
  match value with
  | None => Ok (Some "")
  | Some value =>
      let tmp := value in
      if tmp <? 1000 then Ok (Some (str_int tmp ++ " bytes"))
      else
        tmp <- int_truediv tmp 1000 ;;
        if float_lt_int tmp 1000 then Ok (Some (format_2f tmp ++ " kB"))
        else
          tmp <- float_truediv tmp 1000 ;;
          if float_lt_int tmp 1000 then Ok (Some (format_2f tmp ++ " MB"))
          else
            tmp <- float_truediv tmp 1000 ;;
            if float_lt_int tmp 1000 then Ok (Some (format_2f tmp ++ " GB"))
            else Ok None
  end.

(** ** Sorted view adapter: [FolderTreeViewModel] *)

(** A [DataViewItem] is null or stands for one object of the tree
    ([ItemToObject] and [ObjectToItem] convert between the two). *)
Definition DataViewItem : Type := option Node.
Definition NullDataViewItem : DataViewItem := None.

Record FolderTreeViewModel : Type := { data : list Node }.

(** [a > b] on two [str]: lexicographic on code points, which is the
    order of the UTF-8 bytes a [string] holds. *)
Definition str_gt (a b : string) : bool :=
  match String.compare a b with
  | Gt => true
  | _ => false
  end.

(** [Compare(self, item1, item2, column, ascending)], lines 110-117;
    [file1] and [file2] are the objects of the two items. *)
Definition Compare (self : FolderTreeViewModel) (file1 file2 : Node)
  (column : Z) (ascending : bool) : Z :=
  if (column =? 0) || (size file1 =? size file2) then
    if Bool.eqb ascending (str_gt (path file1) (path file2)) then 1 else -1
  else
    if Bool.eqb ascending (size file1 >? size file2) then 1 else -1.

(** [GetChildren(self, parent, children)], lines 125-136: the new content
    of the array [children] and the returned count. *)
Definition GetChildren (self : FolderTreeViewModel) (parent : DataViewItem)
  : list DataViewItem -> Result (list DataViewItem * Z) :=
  let data :=
    match parent with
    | None => Ok (data self)
    | Some obj => children obj
    end in
  fun children =>
    data <- data ;;
    Ok ((children ++ map Some data)%list, Z.of_nat (List.length data)).

(** [IsContainer(self, item)], lines 138-147. *)
Definition IsContainer (self : FolderTreeViewModel) (item : DataViewItem)
  : bool :=
  match item with
  | None => true
  | Some node => if isinstance_Folder node then true else false
  end.

(** [GetParent(self, item)], lines 149-154. *)
Definition GetParent (self : FolderTreeViewModel) (item : DataViewItem)
  : option ObjRef :=
  match item with
  | None => None
  | Some node => parent node
  end.

(** ** Properties of trees *)

Definition sum_sizes (ns : list Node) : Z :=
  fold_right (fun n acc => size n + acc) 0 ns.

(** Aggregation: at every container of the tree the size is the sum of
    the sizes of its children. *)
Fixpoint aggregated (n : Node) : bool :=
  match n with
  | File _ _ _ => true
  | Folder _ _ s cs => (s =? sum_sizes cs) && forallb aggregated cs
  end.

(** All the nodes of a tree, the root first. *)
Fixpoint nodes_of (n : Node) : list Node :=
  match n with
  | File _ _ _ => [n]
  | Folder _ _ _ cs => n :: flat_map nodes_of cs
  end.

(** The children of a node, none for a file. *)
Definition listed (n : Node) : list Node :=
  match n with
  | File _ _ _ => []
  | Folder _ _ _ cs => cs
  end.

(** Parent linkage below a container whose identity is [r]: each child
    points to [r]. *)
Definition children_point_to (r : ObjRef) (n : Node) : Prop :=
  Forall (fun c => parent c = Some r) (listed n).

(** A result that is a tree with a child named [child_name] that is a
    container of size 0 without children. *)
Definition has_empty_container (child_name : string) (r : Result Node)
  : Prop :=
  exists t p,
    r = Ok t /\ In (Folder p child_name 0 []) (listed t).

(** Which call on an entry is denied: classification ([is_file],
    [is_dir]) or [stat]. *)
Inductive denied : DirEntry -> Prop :=
| denied_is_file name st d sub :
    denied (mkDirEntry name (Raise PermissionError) st d sub)
| denied_stat name d sub :
    denied (mkDirEntry name (Ok true) (Raise PermissionError) d sub)
| denied_is_dir name st sub :
    denied (mkDirEntry name (Ok false) st (Raise PermissionError) sub).

(** An entry the loop gets past: its [try] block returns or raises
    [PermissionError]. *)
Definition passes (parent : option ObjRef) (entry : DirEntry) : bool :=
  match try_error parent entry with
  | None => true
  | Some e => is_PermissionError e
  end.

(** *** The comparator in the words of its description

    Order by name when sorting by column 0 or when the sizes are equal,
    by size otherwise; the sign flips with [ascending]. *)
Definition sign (c : comparison) : Z :=
  match c with
  | Lt => -1
  | Eq => 0
  | Gt => 1
  end.

Definition flip (ascending : bool) (z : Z) : Z :=
  if ascending then z else - z.

Definition two_level (file1 file2 : Node) (column : Z) (ascending : bool)
  : Z :=
  if (column =? 0) || (size file1 =? size file2)
  then flip ascending (sign (String.compare (path file1) (path file2)))
  else flip ascending (sign (Z.compare (size file1) (size file2))).

(** ** More of the file system and of the trees *)

(** [entry.name] *)
Definition entry_name (entry : DirEntry) : string :=
  match entry with
  | mkDirEntry name _ _ _ _ => name
  end.

(** How an enumeration ends: normally, or with the exception the
    iterator (or [os.scandir] itself) raises. *)
Fixpoint scan_outcome (s : Scan) : option Exn :=
  match s with
  | ScanEnd => None
  | ScanRaise e => Some e
  | ScanNext _ rest => scan_outcome rest
  end.

(** A call that returns or is denied. *)
Definition ok_or_denied {A : Type} (r : Result A) : bool :=
  match r with
  | Ok _ => true
  | Raise e => is_PermissionError e
  end.

(** A file system in which nothing fails except by [PermissionError],
    at any depth: the three calls on each entry, and the enumeration of
    each directory. *)
Fixpoint only_denials (entry : DirEntry) : bool :=
  match entry with
  | mkDirEntry _ is_file st_size is_dir sub =>
      ok_or_denied is_file && ok_or_denied st_size && ok_or_denied is_dir
      && match is_dir with
         | Ok true => only_denials_scan sub
         | _ => true
         end
  end
with only_denials_scan (s : Scan) : bool :=
  match s with
  | ScanEnd => true
  | ScanRaise e => is_PermissionError e
  | ScanNext entry rest => only_denials entry && only_denials_scan rest
  end.

(** A file system in which every size [stat] reports is non-negative. *)
Fixpoint sizes_nonneg (entry : DirEntry) : bool :=
  match entry with
  | mkDirEntry _ _ st_size _ sub =>
      match st_size with
      | Ok sz => 0 <=? sz
      | Raise _ => true
      end
      && sizes_nonneg_scan sub
  end
with sizes_nonneg_scan (s : Scan) : bool :=
  match s with
  | ScanEnd => true
  | ScanRaise _ => true
  | ScanNext entry rest => sizes_nonneg entry && sizes_nonneg_scan rest
  end.

(** What the [try] block appends to [files] for an entry: one node, or
    nothing when the entry is skipped. *)
Definition appended (parent : option ObjRef) (entry : DirEntry) : list Node :=
  match try_block parent entry 0 [] with
  | Ok (_, ns) => ns
  | Raise _ => []
  end.

(** An entry that puts a node into [files]. *)
Definition contributes (parent : option ObjRef) (entry : DirEntry) : bool :=
  match appended parent entry with
  | [] => false
  | _ :: _ => true
  end.

(** The bytes of all the files below a node. *)
Fixpoint file_bytes (n : Node) : Z :=
  match n with
  | File _ _ s => s
  | Folder _ _ _ cs => fold_right (fun c acc => file_bytes c + acc) 0 cs
  end.

(** What an entry that does not stop the loop puts into [files]: a file
    node for a regular file that [stat] sizes, the built folder for a
    directory that builds, and nothing for an entry of another kind,
    for a denied entry and for a directory whose build is denied. *)
Inductive contribution (parent : option ObjRef)
  : DirEntry -> list Node -> Prop :=
| contribution_file name sz d sub :
    contribution parent (mkDirEntry name (Ok true) (Ok sz) d sub)
      [File parent name sz]
| contribution_directory name st sub folder :
    get_file_tree name sub parent = Ok folder ->
    contribution parent (mkDirEntry name (Ok false) st (Ok true) sub)
      [folder]
| contribution_other name st sub :
    contribution parent (mkDirEntry name (Ok false) st (Ok false) sub) []
| contribution_denied entry :
    denied entry -> contribution parent entry []
| contribution_unreadable name st sub :
    get_file_tree name sub parent = Raise PermissionError ->
    contribution parent (mkDirEntry name (Ok false) st (Ok true) sub) [].

(** *** The depth of the recursion

    Each level of directories is one more activation of
    [get_file_tree] (line 45), and the interpreter raises
    [RecursionError] when its recursion limit is passed.  That
    exception is not a [PermissionError], so no handler of the builder
    catches it. *)

(** The number of activations below the one that scans [s]. *)
Fixpoint nesting (entry : DirEntry) : nat :=
  match entry with
  | mkDirEntry _ is_file _ is_dir sub =>
      match is_file, is_dir with
      | Ok false, Ok true => S (deepest sub)
      | _, _ => O
      end
  end
with deepest (s : Scan) : nat :=
  match s with
  | ScanEnd => O
  | ScanRaise _ => O
  | ScanNext entry rest => Nat.max (nesting entry) (deepest rest)
  end.

(** The loop of [get_file_tree] with the recursive call as a parameter:
    [call entry_name entry_path] is [None] when that call ends in
    [RecursionError], which then ends the whole loop. *)
Fixpoint for_entry_calling (call : string -> Scan -> option (Result Node))
  (name : string) (parent : option ObjRef) (it : Scan)
  (total : Z) (files : list Node) {struct it} : option (Result Node) :=
  match it with
  | ScanEnd => Some (Ok (Folder parent name total files))
  | ScanRaise e => Some (Raise e)
  | ScanNext (mkDirEntry entry_name is_file st_size is_dir entry_path) rest =>
      let try_block : option (Result (Z * list Node)) :=
        match is_file with
        | Raise e => Some (Raise e)
        | Ok true =>
            Some (size <- st_size ;;
                  Ok (total + size,
                      (files ++ [File parent entry_name size])%list))
        | Ok false =>
            match is_dir with
            | Raise e => Some (Raise e)
            | Ok false => Some (Ok (total, files))
            | Ok true =>
                match call entry_name entry_path with
                | None => None
                | Some r =>
                    Some (folder <- r ;;
                          Ok (total + size folder, (files ++ [folder])%list))
                end
            end
        end in
      match try_block with
      | None => None
      | Some (Ok (total', files')) =>
          for_entry_calling call name parent rest total' files'
      | Some (Raise e) =>
          if is_PermissionError e
          then for_entry_calling call name parent rest total files
          else Some (Raise e)
      end
  end.

(** [get_file_tree] when the recursion limit leaves room for [depth]
    nested activations of it: [None] is [RecursionError]. *)
Fixpoint get_file_tree_within (depth : nat) (name : string) (root : Scan)
  (parent : option ObjRef) {struct depth} : option (Result Node) :=
  match depth with
  | O => None
  | S depth' =>
      for_entry_calling
        (fun entry_name entry_path =>
           get_file_tree_within depth' entry_name entry_path parent)
        name parent root 0 []
  end.

(** [str(n)] is refused for an integer of more than
    [sys.get_int_max_str_digits()] digits, 4300 unless configured. *)
Definition max_str_digits : Z := 4300.

(** ** The rest of the adapter *)

(** [GetColumnCount(self)], lines 122-123. *)
Definition GetColumnCount (self : FolderTreeViewModel) : Z := 2.

(** [GetValue(self, item, col)], lines 156-162, on the object of the
    item: a subscript of the dictionary [{0: node.path, 1:
    str(node.size)}]; [None] stands for the [KeyError] of a missing
    key.  [str(node.size)] is as [str_int] gives it, which is what the
    interpreter prints for a size within [max_str_digits] digits. *)
Definition GetValue (self : FolderTreeViewModel) (node : Node) (col : Z)
  : option string :=
  let values := [(0, path node); (1, str_int (size node))] in
  option_map snd (find (fun kv => fst kv =? col) values).

(** The attributes of a cell that [GetAttr] can touch. *)
Record DataViewItemAttr : Type :=
  { colour : option string; bold : bool; italic : bool }.

(** [GetAttr(self, item, col, attr)], lines 164-173, on the object of
    the item: the new state of [attr] and the returned flag. *)
Definition GetAttr (self : FolderTreeViewModel) (node : Node) (col : Z)
  (attr : DataViewItemAttr) : DataViewItemAttr * bool :=
  if isinstance_Folder node then
    let attr := {| colour := Some "blue"; bold := bold attr;
                   italic := italic attr |} in
    let attr := {| colour := colour attr; bold := true;
                   italic := italic attr |} in
    (attr, true)
  else (attr, false).

(** [self.model = FolderTreeViewModel([tree])], lines 183 and 191 of
    [AppFrame.__init__]. *)
Definition AppFrame_model (root_path : string) (fs : Scan)
  : Result FolderTreeViewModel :=
  tree <- AppFrame_tree root_path fs ;;
  Ok {| data := [tree] |}.

(** * Theorems *)

(** ** The builder's loop *)

Lemma get_file_tree_for_entry (name : string) (root : Scan)
  (parent : option ObjRef) :
  get_file_tree name root parent = for_entry name parent root 0 [].
Proof.
  destruct root as [|e|entry rest]; try reflexivity.
  simpl.
  match goal with
  | |- context [ ?F rest 0 [] ] =>
      lazymatch F with
      | for_entry _ _ => fail
      | _ =>
          assert (loop_eq : forall it total files,
                     F it total files = for_entry name parent it total files)
      end
  end.
  { induction it as [|e|[entry_name is_file st_size is_dir entry_path] it' IH];
      intros total files; try reflexivity.
    simpl. destruct (_ <- is_file ;; _) as [[total' files']|e];
      [apply IH | destruct (is_PermissionError e); [apply IH | reflexivity]]. }
  destruct entry as [entry_name is_file st_size is_dir entry_path].
  unfold try_block.
  destruct (_ <- is_file ;; _) as [[total' files']|e];
    [apply loop_eq | destruct (is_PermissionError e); [apply loop_eq | reflexivity]].
Qed.

(** The [try] block touches [total] and [files] only by adding to them. *)
Lemma try_block_accumulates (p : option ObjRef) (entry : DirEntry)
  (total : Z) (files : list Node) :
  try_block p entry total files =
  match try_block p entry 0 [] with
  | Ok (s, ns) => Ok (total + s, (files ++ ns)%list)
  | Raise e => Raise e
  end.
Proof.
  destruct entry as [entry_name [[|]|e1] [sz|e2] [[|]|e3] sub]; simpl;
    try reflexivity;
    try (rewrite Z.add_0_r, app_nil_r; reflexivity).
  all: destruct (get_file_tree entry_name sub p) as [folder|e]; reflexivity.
Qed.

Lemma try_block_raises (p : option ObjRef) (entry : DirEntry) (e : Exn)
  (total : Z) (files : list Node) :
  try_error p entry = Some e ->
  try_block p entry total files = Raise e.
Proof.
  unfold try_error. intros H. rewrite try_block_accumulates.
  destruct (try_block p entry 0 []) as [[s ns]|e']; congruence.
Qed.

Lemma try_block_returns (p : option ObjRef) (entry : DirEntry)
  (total : Z) (files : list Node) :
  try_error p entry = None ->
  exists s ns, try_block p entry total files = Ok (total + s, (files ++ ns)%list).
Proof.
  unfold try_error. intros H. rewrite try_block_accumulates.
  destruct (try_block p entry 0 []) as [[s ns]|e']; [eauto | discriminate].
Qed.

(** An entry whose [try] block raises [PermissionError] is stepped over. *)
Lemma for_entry_skip (name : string) (p : option ObjRef) (entry : DirEntry)
  (rest : Scan) (total : Z) (files : list Node) :
  try_error p entry = Some PermissionError ->
  for_entry name p (ScanNext entry rest) total files =
  for_entry name p rest total files.
Proof.
  intros H. simpl. rewrite (try_block_raises _ _ _ _ _ H). reflexivity.
Qed.

(** Two scans on which the loop agrees still agree after the same
    entries in front. *)
Lemma for_entry_entries_then (name : string) (p : option ObjRef)
  (s1 s2 : Scan) :
  (forall total files,
      for_entry name p s1 total files = for_entry name p s2 total files) ->
  forall before total files,
    for_entry name p (entries_then before s1) total files =
    for_entry name p (entries_then before s2) total files.
Proof.
  intros Hs. induction before as [|entry before IH]; intros total files.
  - apply Hs.
  - simpl. destruct (try_block p entry total files) as [[total' files']|e].
    + apply IH.
    + destruct (is_PermissionError e); [apply IH | reflexivity].
Qed.

(** A scan on which the loop raises [e] whatever was accumulated still
    raises [e] after entries the loop gets past. *)
Lemma for_entry_reaches (name : string) (p : option ObjRef) (s : Scan)
  (e : Exn) :
  (forall total files, for_entry name p s total files = Raise e) ->
  forall before,
    forallb (passes p) before = true ->
    forall total files,
      for_entry name p (entries_then before s) total files = Raise e.
Proof.
  intros Hs. induction before as [|entry before IH]; intros Hb total files.
  - apply Hs.
  - simpl in Hb. apply andb_true_iff in Hb. destruct Hb as [Hentry Hb].
    simpl. unfold passes in Hentry.
    destruct (try_error p entry) as [e'|] eqn:He.
    + rewrite (try_block_raises _ _ _ _ _ He), Hentry. apply IH, Hb.
    + destruct (try_block_returns p entry total files He) as (s' & ns & ->).
      apply IH, Hb.
Qed.

Lemma denied_try_error (p : option ObjRef) (entry : DirEntry) :
  denied entry -> try_error p entry = Some PermissionError.
Proof. intros H. destruct H; reflexivity. Qed.

(** ** Sizes *)

Lemma sum_sizes_app (ns ms : list Node) :
  sum_sizes (ns ++ ms) = sum_sizes ns + sum_sizes ms.
Proof.
  induction ns as [|n ns IH]; simpl; [reflexivity | rewrite IH; lia].
Qed.

(** The loop keeps [total] equal to the sum over [files], and every tree
    in [files] aggregated; so is every tree the recursive call returns. *)
Lemma builder_aggregates :
  (forall entry p total files total' files',
      total = sum_sizes files ->
      forallb aggregated files = true ->
      try_block p entry total files = Ok (total', files') ->
      total' = sum_sizes files' /\ forallb aggregated files' = true)
  /\
  (forall it name p total files t,
      total = sum_sizes files ->
      forallb aggregated files = true ->
      for_entry name p it total files = Ok t ->
      aggregated t = true).
Proof.
  assert (step : forall files n total,
             total = sum_sizes files ->
             forallb aggregated files = true ->
             aggregated n = true ->
             total + size n = sum_sizes (files ++ [n]) /\
             forallb aggregated (files ++ [n]) = true).
  { intros files n total -> Hall Hn. split.
    - rewrite sum_sizes_app. simpl. lia.
    - rewrite forallb_app, Hall. simpl. rewrite Hn. reflexivity. }
  apply DirEntry_Scan_mutind.
  - intros entry_name is_file st_size is_dir sub IHsub
      p total files total' files' Htotal Hall Hrun.
    simpl in Hrun.
    destruct is_file as [[|]|e1]; simpl in Hrun; try discriminate.
    + destruct st_size as [sz|e2]; simpl in Hrun; [|discriminate].
      injection Hrun as <- <-.
      apply (step files (File p entry_name sz) total Htotal Hall).
      reflexivity.
    + destruct is_dir as [[|]|e3]; simpl in Hrun; try discriminate.
      * destruct (get_file_tree entry_name sub p) as [folder|e] eqn:Hsub;
           simpl in Hrun; [|discriminate].
         injection Hrun as <- <-.
         apply (step files folder total Htotal Hall).
         rewrite get_file_tree_for_entry in Hsub.
         apply (IHsub entry_name p 0 [] folder); auto.
      * injection Hrun as <- <-. auto.
  - intros name p total files t Htotal Hall Hrun.
    simpl in Hrun. injection Hrun as <-.
    simpl. rewrite Hall, Htotal, Z.eqb_refl. reflexivity.
  - intros e name p total files t _ _ Hrun. discriminate.
  - intros entry IHentry rest IHrest name p total files t Htotal Hall Hrun.
    simpl in Hrun.
    destruct (try_block p entry total files) as [[total' files']|e] eqn:Htry.
    + destruct (IHentry p total files total' files' Htotal Hall Htry).
      eapply IHrest; eauto.
    + destruct (is_PermissionError e); [|discriminate].
      eapply IHrest; eauto.
Qed.

Lemma aggregated_nodes (t : Node) :
  aggregated t = true ->
  forall n cs, In n (nodes_of t) -> children n = Ok cs -> size n = sum_sizes cs.
Proof.
  induction t as [p name s|p name s cs IH] using Node_tree_ind;
    intros Hagg n cs' Hin Hcs.
  - destruct Hin as [<-|[]]. discriminate.
  - simpl in Hagg. apply andb_true_iff in Hagg. destruct Hagg as [Hs Hall].
    destruct Hin as [<-|Hin].
    + simpl in Hcs. injection Hcs as <-. simpl. apply Z.eqb_eq, Hs.
    + apply in_flat_map in Hin. destruct Hin as (c & Hc & Hin).
      rewrite Forall_forall in IH. rewrite forallb_forall in Hall.
      apply (IH c Hc (Hall c Hc) n cs' Hin Hcs).
Qed.

(** C2. In every tree the builder returns, each container node, at
    every level, has as size the sum of the sizes of its children. *)
Theorem get_file_tree_aggregation (name : string) (root : Scan)
  (p : option ObjRef) (t : Node) :
  get_file_tree name root p = Ok t ->
  forall n cs,
    In n (nodes_of t) -> children n = Ok cs -> size n = sum_sizes cs.
Proof.
  intros Hrun. apply aggregated_nodes.
  rewrite get_file_tree_for_entry in Hrun.
  apply (proj2 builder_aggregates root name p 0 [] t); auto.
Qed.

Lemma get_file_tree_aggregation_witness :
  let sub := Folder None "sub" 50 [File None "b" 50] in
  size sub = sum_sizes [File None "b" 50].
Proof.
  intros sub.
  apply (get_file_tree_aggregation "root"
           (ScanNext (regular_file "a" 100)
              (ScanNext (directory "sub" (ScanNext (regular_file "b" 50) ScanEnd))
                 ScanEnd))
           None
           (Folder None "root" 150 [File None "a" 100; sub])).
  - reflexivity.
  - simpl. right. right. left. reflexivity.
  - reflexivity.
Defined.

(** ** Parent linkage *)

(** Every node of a built tree carries the [parent] argument of the
    call: the argument is handed unchanged to each [File], to each
    recursive call and to the returned [Folder]. *)
Lemma builder_passes_parent :
  (forall entry p total files total' files',
      Forall (fun n => Forall (fun m => parent m = p) (nodes_of n)) files ->
      try_block p entry total files = Ok (total', files') ->
      Forall (fun n => Forall (fun m => parent m = p) (nodes_of n)) files')
  /\
  (forall it name p total files t,
      Forall (fun n => Forall (fun m => parent m = p) (nodes_of n)) files ->
      for_entry name p it total files = Ok t ->
      Forall (fun m => parent m = p) (nodes_of t)).
Proof.
  apply DirEntry_Scan_mutind.
  - intros entry_name is_file st_size is_dir sub IHsub
      p total files total' files' Hall Hrun.
    simpl in Hrun.
    destruct is_file as [[|]|e1]; simpl in Hrun; try discriminate.
    + destruct st_size as [sz|e2]; simpl in Hrun; [|discriminate].
      injection Hrun as <- <-.
      apply Forall_app. split; [exact Hall|].
      repeat constructor.
    + destruct is_dir as [[|]|e3]; simpl in Hrun; try discriminate.
      * destruct (get_file_tree entry_name sub p) as [folder|e] eqn:Hsub;
          simpl in Hrun; [|discriminate].
        injection Hrun as <- <-.
        apply Forall_app. split; [exact Hall|].
        constructor; [|constructor].
        rewrite get_file_tree_for_entry in Hsub.
        apply (IHsub entry_name p 0 [] folder); auto.
      * injection Hrun as <- <-. exact Hall.
  - intros name p total files t Hall Hrun.
    simpl in Hrun. injection Hrun as <-.
    simpl. constructor; [reflexivity|].
    apply Forall_flat_map. exact Hall.
  - intros e name p total files t _ Hrun. discriminate.
  - intros entry IHentry rest IHrest name p total files t Hall Hrun.
    simpl in Hrun.
    destruct (try_block p entry total files) as [[total' files']|e] eqn:Htry.
    + eapply IHrest; [|exact Hrun]. eapply IHentry; eauto.
    + destruct (is_PermissionError e); [|discriminate].
      eapply IHrest; eauto.
Qed.

Lemma get_file_tree_parent_everywhere (name : string) (root : Scan)
  (p : option ObjRef) (t : Node) :
  get_file_tree name root p = Ok t ->
  Forall (fun m => parent m = p) (nodes_of t).
Proof.
  intros Hrun. rewrite get_file_tree_for_entry in Hrun.
  apply (proj2 builder_passes_parent root name p 0 [] t); auto.
Qed.

(** The tree the application builds has no parent reference anywhere. *)
Lemma AppFrame_tree_parents_absent (root_path : string) (fs : Scan)
  (t : Node) :
  AppFrame_tree root_path fs = Ok t ->
  forall n, In n (nodes_of t) -> parent n = None.
Proof.
  intros Hrun n Hin.
  apply get_file_tree_parent_everywhere in Hrun.
  rewrite Forall_forall in Hrun. auto.
Qed.

Lemma AppFrame_tree_children_unlinked (root_path : string) (fs : Scan)
  (t : Node) (r : ObjRef) :
  AppFrame_tree root_path fs = Ok t ->
  listed t <> [] ->
  ~ children_point_to r t.
Proof.
  intros Hrun Hne Hlinked.
  destruct t as [p name s|p name s [|c cs]]; try (apply Hne; reflexivity).
  unfold children_point_to in Hlinked. simpl in Hlinked.
  apply Forall_inv in Hlinked.
  rewrite (AppFrame_tree_parents_absent _ _ _ Hrun c) in Hlinked;
    [discriminate|].
  simpl. right. apply in_or_app. left.
  destruct c; simpl; auto.
Qed.

(** C1. On a directory that holds one file, the root container lists the
    file node, and the file node's [parent] is absent: it is the [parent]
    argument of the root call, not a reference to the container,
    whatever the container's identity [r]. *)
Theorem get_file_tree_child_parent_absent :
  get_file_tree "root" (ScanNext (regular_file "a" 100) ScanEnd) None
  = Ok (Folder None "root" 100 [File None "a" 100])
  /\ forall r : ObjRef,
      ~ children_point_to r (Folder None "root" 100 [File None "a" 100]).
Proof.
  split; [reflexivity|].
  intros r H. apply Forall_inv in H. discriminate.
Qed.

(** ** Errors during traversal *)

(** Dropping an entry whose [try] block raises [PermissionError] from a
    directory does not change what the builder returns. *)
Lemma get_file_tree_steps_over (name : string) (p : option ObjRef)
  (before : list DirEntry) (entry : DirEntry) (after : Scan) :
  try_error p entry = Some PermissionError ->
  get_file_tree name (entries_then before (ScanNext entry after)) p =
  get_file_tree name (entries_then before after) p.
Proof.
  intros H. rewrite !get_file_tree_for_entry.
  apply for_entry_entries_then. intros total files.
  apply for_entry_skip, H.
Qed.

(** What the builder returns on a directory whose entries are all
    readable regular files. *)
Lemma get_file_tree_regular_files (name : string) (p : option ObjRef)
  (fs : list (string * Z)) :
  let nodes := map (fun f => File p (fst f) (snd f)) fs in
  get_file_tree name
    (entries_then (map (fun f => regular_file (fst f) (snd f)) fs) ScanEnd) p
  = Ok (Folder p name (sum_sizes nodes) nodes).
Proof.
  intros nodes. rewrite get_file_tree_for_entry.
  assert (loop : forall total files,
             for_entry name p
               (entries_then (map (fun f => regular_file (fst f) (snd f)) fs)
                  ScanEnd) total files
             = Ok (Folder p name (total + sum_sizes nodes)
                     (files ++ nodes))).
  { subst nodes. induction fs as [|[fname sz] fs IH]; intros total files.
    - simpl. rewrite Z.add_0_r, app_nil_r. reflexivity.
    - simpl. rewrite IH. simpl. rewrite <- app_assoc. simpl.
      f_equal. f_equal. lia. }
  rewrite loop. reflexivity.
Qed.

Lemma entries_then_app (es1 es2 : list DirEntry) (s : Scan) :
  entries_then (es1 ++ es2) s = entries_then es1 (entries_then es2 s).
Proof.
  induction es1 as [|e es1 IH]; simpl; [reflexivity | rewrite IH; reflexivity].
Qed.

(** The [try] block on an entry with a contribution: it appends the
    contribution and adds its size, or is left by [PermissionError]
    with nothing to append. *)
Lemma contribution_try_block (p : option ObjRef) (entry : DirEntry)
  (ns : list Node) :
  contribution p entry ns ->
  forall total files,
    try_block p entry total files
    = Ok (total + sum_sizes ns, (files ++ ns)%list)
    \/ (ns = [] /\ try_block p entry total files = Raise PermissionError).
Proof.
  intros H total files.
  destruct H as [name sz d sub|name st sub folder Hsub|name st sub
                |entry Hdenied|name st sub Hsub]; simpl.
  - left. do 2 f_equal. lia.
  - left. rewrite Hsub. simpl. do 2 f_equal. lia.
  - left. rewrite Z.add_0_r, app_nil_r. reflexivity.
  - right. split; [reflexivity|].
    apply try_block_raises, denied_try_error, Hdenied.
  - right. rewrite Hsub. split; reflexivity.
Qed.

(** On an enumeration that ends normally, of entries that each have a
    contribution, the loop returns the folder of the contributions. *)
Lemma for_entry_contributions (name : string) (p : option ObjRef)
  (es : list DirEntry) (nss : list (list Node)) :
  Forall2 (contribution p) es nss ->
  forall total files,
    for_entry name p (entries_then es ScanEnd) total files
    = Ok (Folder p name (total + sum_sizes (List.concat nss))
            (files ++ List.concat nss)).
Proof.
  induction 1 as [|entry ns es nss Hentry Hrest IH]; intros total files.
  - simpl. rewrite Z.add_0_r, app_nil_r. reflexivity.
  - simpl.
    destruct (contribution_try_block p entry ns Hentry total files)
      as [->|[-> ->]].
    + rewrite IH, sum_sizes_app, <- app_assoc. do 2 f_equal. lia.
    + simpl. apply IH.
Qed.

(** C4. An entry on which [is_file], [stat] or [is_dir] is denied is
    skipped and nothing else.  Whatever comes after it, the builder
    returns what it returns on the same directory without that entry;
    and when the siblings before and after each have a contribution (a
    file node for a readable file, the built folder for a directory),
    the builder returns the container that lists exactly the siblings'
    contributions, in order, and whose size is their sum: the denied
    entry is not listed, its size is not counted, and no error
    surfaces. *)
Theorem get_file_tree_skips_denied_entry (name : string) (p : option ObjRef)
  (before : list DirEntry) (entry : DirEntry) (after : list DirEntry)
  (nodes_before nodes_after : list (list Node)) :
  denied entry ->
  Forall2 (contribution p) before nodes_before ->
  Forall2 (contribution p) after nodes_after ->
  (forall rest : Scan,
      get_file_tree name (entries_then before (ScanNext entry rest)) p
      = get_file_tree name (entries_then before rest) p)
  /\ get_file_tree name
       (entries_then before (ScanNext entry (entries_then after ScanEnd))) p
     = Ok (Folder p name
             (sum_sizes (List.concat nodes_before ++ List.concat nodes_after))
             (List.concat nodes_before ++ List.concat nodes_after)).
Proof.
  intros Hdenied Hbefore Hafter. split.
  - intros rest. apply get_file_tree_steps_over, denied_try_error, Hdenied.
  - rewrite get_file_tree_for_entry.
    change (ScanNext entry (entries_then after ScanEnd))
      with (entries_then (entry :: after) ScanEnd).
    rewrite <- entries_then_app.
    rewrite (for_entry_contributions name p (before ++ entry :: after)
               (nodes_before ++ [] :: nodes_after)).
    + rewrite List.concat_app. reflexivity.
    + apply Forall2_app; [exact Hbefore|].
      constructor; [apply contribution_denied, Hdenied | exact Hafter].
Qed.

Lemma get_file_tree_skips_denied_entry_witness :
  get_file_tree "root"
    (ScanNext (regular_file "a" 100)
       (ScanNext (mkDirEntry "locked" (Ok true) (Raise PermissionError)
                    (Ok false) (ScanRaise NotADirectoryError))
          (ScanNext (regular_file "c" 50)
             (ScanNext (directory "sub" (ScanNext (regular_file "b" 7) ScanEnd))
                ScanEnd)))) None
  = Ok (Folder None "root" 157
          [File None "a" 100; File None "c" 50;
           Folder None "sub" 7 [File None "b" 7]]).
Proof.
  refine (proj2
    (get_file_tree_skips_denied_entry "root" None
       [regular_file "a" 100]
       (mkDirEntry "locked" (Ok true) (Raise PermissionError)
          (Ok false) (ScanRaise NotADirectoryError))
       [regular_file "c" 50;
        directory "sub" (ScanNext (regular_file "b" 7) ScanEnd)]
       [[File None "a" 100]]
       [[File None "c" 50]; [Folder None "sub" 7 [File None "b" 7]]]
       (denied_stat "locked" (Ok false) (ScanRaise NotADirectoryError))
       _ _)).
  - constructor; [apply contribution_file | constructor].
  - constructor; [apply contribution_file|].
    constructor; [apply contribution_directory; reflexivity | constructor].
Defined.

(** A subdirectory whose scan is denied is left out of the children of
    its parent: it does not appear there as an empty container. *)
Lemma get_file_tree_unreadable_subdirectory_not_listed :
  get_file_tree "root"
    (ScanNext (directory "locked" (ScanRaise PermissionError)) ScanEnd) None
  = Ok (Folder None "root" 0 [])
  /\ ~ has_empty_container "locked"
         (get_file_tree "root"
            (ScanNext (directory "locked" (ScanRaise PermissionError)) ScanEnd)
            None).
Proof.
  split; [reflexivity|].
  intros (t & p & Hrun & Hin).
  injection Hrun as <-. exact Hin.
Qed.

(** C3, amended. A subdirectory whose enumeration fails with
    [PermissionError] is omitted from its parent's children and adds
    nothing to the size: the builder returns what it returns on the same
    directory without that subdirectory, and raises nothing because of
    it. *)
Theorem get_file_tree_omits_unreadable_subdirectory (name : string)
  (p : option ObjRef) (before : list DirEntry) (entry_name : string)
  (st_size : Result Z) (after : Scan) :
  get_file_tree name
    (entries_then before
       (ScanNext (mkDirEntry entry_name (Ok false) st_size (Ok true)
                    (ScanRaise PermissionError))
          after)) p
  = get_file_tree name (entries_then before after) p.
Proof.
  apply get_file_tree_steps_over. reflexivity.
Qed.

(** What the [try] block raises on a directory entry is what the
    recursive call raises, and on a file what [stat] raises. *)
Lemma try_error_directory (p : option ObjRef) (entry_name : string)
  (st_size : Result Z) (sub : Scan) :
  try_error p (mkDirEntry entry_name (Ok false) st_size (Ok true) sub) =
  match get_file_tree entry_name sub p with
  | Ok _ => None
  | Raise e => Some e
  end.
Proof.
  unfold try_error. simpl.
  destruct (get_file_tree entry_name sub p); reflexivity.
Qed.

Lemma try_error_stat (p : option ObjRef) (entry_name : string) (e : Exn)
  (is_dir : Result bool) (sub : Scan) :
  try_error p (mkDirEntry entry_name (Ok true) (Raise e) is_dir sub) = Some e.
Proof. reflexivity. Qed.

(** C7. Only [PermissionError] is recovered.  When the entries before
    are got past, an exception [e] of another class raised by the [try]
    block of an entry (by its classification, its [stat], or the
    traversal of the subdirectory it names) or by the enumeration of
    the directory is the outcome of the builder. *)
Theorem get_file_tree_propagates (name : string) (p : option ObjRef)
  (before : list DirEntry) (entry : DirEntry) (after : Scan) (e : Exn) :
  forallb (passes p) before = true ->
  is_PermissionError e = false ->
  (try_error p entry = Some e ->
   get_file_tree name (entries_then before (ScanNext entry after)) p = Raise e)
  /\ get_file_tree name (entries_then before (ScanRaise e)) p = Raise e.
Proof.
  intros Hbefore Hclass. rewrite !get_file_tree_for_entry. split.
  - intros Hentry. apply for_entry_reaches; [|exact Hbefore].
    intros total files. simpl.
    rewrite (try_block_raises _ _ _ _ _ Hentry), Hclass. reflexivity.
  - apply for_entry_reaches; [|exact Hbefore]. reflexivity.
Qed.

Lemma get_file_tree_propagates_witness :
  get_file_tree "root"
    (ScanNext (regular_file "a" 100)
       (ScanNext
          (directory "sub"
             (ScanNext (mkDirEntry "gone" (Ok true) (Raise FileNotFoundError)
                          (Ok false) (ScanRaise FileNotFoundError))
                ScanEnd))
          (ScanNext (regular_file "c" 50) ScanEnd))) None
  = Raise FileNotFoundError
  /\ get_file_tree "root"
       (ScanNext (regular_file "a" 100) (ScanRaise (OSError 5))) None
     = Raise (OSError 5).
Proof.
  split.
  - apply (proj1 (get_file_tree_propagates "root" None
                    [regular_file "a" 100]
                    (directory "sub"
                       (ScanNext
                          (mkDirEntry "gone" (Ok true) (Raise FileNotFoundError)
                             (Ok false) (ScanRaise FileNotFoundError))
                          ScanEnd))
                    (ScanNext (regular_file "c" 50) ScanEnd)
                    FileNotFoundError eq_refl eq_refl)).
    reflexivity.
  - apply (proj2 (get_file_tree_propagates "root" None
                    [regular_file "a" 100] (regular_file "c" 50) ScanEnd
                    (OSError 5) eq_refl eq_refl)).
Defined.

(** A root that does not exist makes the build raise; no root node is
    returned. *)
Lemma AppFrame_tree_missing_root_raises :
  AppFrame_tree "missing" (ScanRaise FileNotFoundError)
  = Raise FileNotFoundError
  /\ AppFrame_tree "missing" (ScanRaise FileNotFoundError)
     <> Ok (Folder None "missing" 0 []).
Proof. split; [reflexivity | discriminate]. Qed.

(** C9, amended. When the root cannot be enumerated, whatever the
    error, the builder raises that error and the construction of the
    application's tree raises it too. *)
Theorem get_file_tree_root_error (name : string) (p : option ObjRef)
  (e : Exn) :
  get_file_tree name (ScanRaise e) p = Raise e
  /\ AppFrame_tree name (ScanRaise e) = Raise e.
Proof. split; reflexivity. Qed.

(** ** Size formatter *)

(** Below 1000 the count is printed as it is. *)
Lemma pretty_print_size_bytes (v : Z) :
  v < 1000 ->
  pretty_print_size (Some v) = Ok (Some (str_int v ++ " bytes")).
Proof.
  intros H. unfold pretty_print_size.
  destruct (Z.ltb_spec v 1000); [reflexivity | lia].
Qed.

Lemma pretty_print_size_absent : pretty_print_size None = Ok (Some "").
Proof. reflexivity. Qed.

(** [999999 / 1000] is the binary64 number [0x1.f3ffdf3b645a2p+9], just
    below 999.999 and far above 999.995. *)
Lemma int_truediv_999999 :
  int_truediv 999999 1000 = Ok (S754_finite false 0x1f3ffdf3b645a2 (-43)).
Proof. vm_compute. reflexivity. Qed.

(** From 10^12 on, control runs off the end of the function. *)
Lemma pretty_print_size_terabyte :
  pretty_print_size (Some (10 ^ 12)) = Ok None.
Proof. vm_compute. reflexivity. Qed.

(** The formatter rounds to two decimals, it does not truncate: 999999
    is printed as 1000.00 kB. *)
Lemma pretty_print_size_999999_rounds_up :
  pretty_print_size (Some 999999) <> Ok (Some "999.99 kB").
Proof. vm_compute. discriminate. Qed.

(** C5, amended. Boundary values of the formatter: 999 is printed in
    bytes, 1000^k for k = 1, 2, 3 as 1.00 with the k-th unit, and 999999
    as 1000.00 kB. *)
Theorem pretty_print_size_boundaries :
  pretty_print_size (Some 999) = Ok (Some "999 bytes")
  /\ pretty_print_size (Some 1000) = Ok (Some "1.00 kB")
  /\ pretty_print_size (Some 999999) = Ok (Some "1000.00 kB")
  /\ pretty_print_size (Some (1000 ^ 1)) = Ok (Some "1.00 kB")
  /\ pretty_print_size (Some (1000 ^ 2)) = Ok (Some "1.00 MB")
  /\ pretty_print_size (Some (1000 ^ 3)) = Ok (Some "1.00 GB").
Proof. repeat split; vm_compute; reflexivity. Qed.

(** ** Sorted view adapter *)

Lemma gtb_compare (a b : Z) :
  (a >? b) = match a ?= b with Gt => true | _ => false end.
Proof. reflexivity. Qed.

(** C6. Wherever the two-level comparator of the description (by name
    for column 0 or equal sizes, by size otherwise, sign flipped by
    [ascending]) puts two nodes in a strict order, [Compare] returns
    that order. *)
Theorem Compare_two_level (self : FolderTreeViewModel) (file1 file2 : Node)
  (column : Z) (ascending : bool) :
  two_level file1 file2 column ascending <> 0 ->
  Compare self file1 file2 column ascending
  = two_level file1 file2 column ascending.
Proof.
  unfold Compare, two_level, str_gt. rewrite gtb_compare.
  destruct ((column =? 0) || (size file1 =? size file2)).
  - destruct (String.compare (path file1) (path file2)), ascending;
      simpl; intros H; try reflexivity; exfalso; apply H; reflexivity.
  - destruct (size file1 ?= size file2), ascending;
      simpl; intros H; try reflexivity; exfalso; apply H; reflexivity.
Qed.

Lemma Compare_two_level_witness :
  Compare {| data := [] |} (File None "a" 7) (File None "b" 7) 1 true = -1
  /\ Compare {| data := [] |} (File None "b" 7) (File None "a" 7) 1 true = 1.
Proof.
  split.
  - apply (Compare_two_level {| data := [] |}
             (File None "a" 7) (File None "b" 7) 1 true).
    vm_compute. discriminate.
  - apply (Compare_two_level {| data := [] |}
             (File None "b" 7) (File None "a" 7) 1 true).
    vm_compute. discriminate.
Defined.

(** The ascending flag flips the sign of every comparison. *)
Lemma Compare_flips (self : FolderTreeViewModel) (file1 file2 : Node)
  (column : Z) :
  Compare self file1 file2 column false
  = - Compare self file1 file2 column true.
Proof.
  unfold Compare.
  destruct ((column =? 0) || (size file1 =? size file2));
    [destruct (str_gt (path file1) (path file2))
    |destruct (size file1 >? size file2)]; reflexivity.
Qed.

Lemma str_gt_irrefl (s : string) : str_gt s s = false.
Proof.
  unfold str_gt. pose proof (String.compare_antisym s s) as H.
  destruct (String.compare s s); [reflexivity | reflexivity | discriminate].
Qed.

(** C10. [Compare] never returns 0: the result is 1 or -1 for every
    pair of nodes, and for two nodes with equal name and equal size (a
    node and itself, too) it is -1 when ascending and 1 when
    descending. *)
Theorem Compare_never_zero (self : FolderTreeViewModel) (file1 file2 : Node)
  (column : Z) (ascending : bool) :
  Compare self file1 file2 column ascending <> 0
  /\ (Compare self file1 file2 column ascending = 1
      \/ Compare self file1 file2 column ascending = -1)
  /\ Compare self file1 file1 column ascending = (if ascending then -1 else 1)
  /\ (path file1 = path file2 -> size file1 = size file2 ->
      Compare self file1 file2 column ascending
      = if ascending then -1 else 1).
Proof.
  assert (tie : forall f1 f2,
             path f1 = path f2 -> size f1 = size f2 ->
             Compare self f1 f2 column ascending
             = if ascending then -1 else 1).
  { intros f1 f2 Hpath Hsize. unfold Compare.
    rewrite Hpath, Hsize, Z.eqb_refl, orb_true_r, str_gt_irrefl.
    destruct ascending; reflexivity. }
  repeat split.
  - unfold Compare.
    destruct ((column =? 0) || (size file1 =? size file2));
      match goal with
      | |- (if ?b then _ else _) <> _ => destruct b; discriminate
      end.
  - unfold Compare.
    destruct ((column =? 0) || (size file1 =? size file2));
      match goal with
      | |- (if ?b then _ else _) = _ \/ _ => destruct b; auto
      end.
  - apply tie; reflexivity.
  - apply tie.
Qed.

Lemma Compare_never_zero_witness :
  Compare {| data := [] |} (File None "a" 7) (Folder (Some 1%positive) "a" 7 [])
    1 true = -1.
Proof.
  apply (proj2 (proj2 (proj2
           (Compare_never_zero {| data := [] |} (File None "a" 7)
              (Folder (Some 1%positive) "a" 7 []) 1 true)))); reflexivity.
Defined.

(** Asked for the children of a file node, the adapter raises. *)
Lemma GetChildren_file_raises :
  GetChildren {| data := [] |} (Some (File None "a" 1)) []
  = Raise AttributeError
  /\ GetChildren {| data := [] |} (Some (File None "a" 1)) [] <> Ok ([], 0).
Proof. split; [reflexivity | discriminate]. Qed.

(** C8, amended. For a file node [GetChildren] returns nothing: the
    lookup of [children] raises [AttributeError].  Such a node is not a
    container for [IsContainer]; for a container node the stored
    children are appended and counted. *)
Theorem GetChildren_by_kind (self : FolderTreeViewModel)
  (p : option ObjRef) (name : string) (s : Z) (cs : list Node)
  (children : list DataViewItem) :
  GetChildren self (Some (File p name s)) children = Raise AttributeError
  /\ IsContainer self (Some (File p name s)) = false
  /\ GetChildren self (Some (Folder p name s cs)) children
     = Ok ((children ++ map Some cs)%list, Z.of_nat (List.length cs))
  /\ IsContainer self (Some (Folder p name s cs)) = true.
Proof. repeat split. Qed.

(** * Further properties *)

(** ** What the builder returns *)

Lemma for_entry_returns_folder (name : string) (p : option ObjRef)
  (it : Scan) :
  forall total files t,
    for_entry name p it total files = Ok t ->
    exists s cs, t = Folder p name s cs.
Proof.
  induction it as [|e|entry rest IH]; intros total files t Hrun;
    simpl in Hrun.
  - injection Hrun as <-. eauto.
  - discriminate.
  - destruct (try_block p entry total files) as [[total' files']|e].
    + eapply IH, Hrun.
    + destruct (is_PermissionError e); [eapply IH, Hrun | discriminate].
Qed.

Lemma get_file_tree_returns_named_folder_aux (name : string) (root : Scan)
  (p : option ObjRef) (t : Node) :
  get_file_tree name root p = Ok t ->
  exists s cs, t = Folder p name s cs.
Proof.
  rewrite get_file_tree_for_entry. apply for_entry_returns_folder.
Qed.

(** X1. A tree the builder returns is always a container, named [name]
    and carrying the [parent] argument, never a file node. *)
Theorem get_file_tree_returns_named_folder (name : string) (root : Scan)
  (p : option ObjRef) (t : Node) :
  get_file_tree name root p = Ok t ->
  isinstance_Folder t = true /\ path t = name /\ parent t = p.
Proof.
  rewrite get_file_tree_for_entry. intros Hrun.
  destruct (for_entry_returns_folder _ _ _ _ _ _ Hrun) as (s & cs & ->).
  repeat split.
Qed.

Lemma get_file_tree_returns_named_folder_witness :
  isinstance_Folder (Folder (Some 7%positive) "sub" 50 [File (Some 7%positive) "b" 50]) = true
  /\ path (Folder (Some 7%positive) "sub" 50 [File (Some 7%positive) "b" 50]) = "sub"
  /\ parent (Folder (Some 7%positive) "sub" 50 [File (Some 7%positive) "b" 50])
     = Some 7%positive.
Proof.
  apply (get_file_tree_returns_named_folder "sub"
           (ScanNext (regular_file "b" 50) ScanEnd) (Some 7%positive)).
  reflexivity.
Defined.

(** What one run of the [try] block contributes: at most one node,
    named after the entry, and its size. *)
Lemma try_block_contribution (p : option ObjRef) (entry : DirEntry)
  (s : Z) (ns : list Node) :
  try_block p entry 0 [] = Ok (s, ns) ->
  s = sum_sizes ns
  /\ (List.length ns <= 1)%nat
  /\ forall n, In n ns -> path n = entry_name entry.
Proof.
  destruct entry as [entry_name0 [[|]|e1] st_size is_dir sub]; simpl;
    try discriminate.
  - destruct st_size as [sz|e2]; simpl; [|discriminate].
    intros [= <- <-]. simpl. repeat split; [lia | auto |].
    intros n [<-|[]]. reflexivity.
  - destruct is_dir as [[|]|e3]; simpl; try discriminate.
    + destruct (get_file_tree entry_name0 sub p) as [folder|e] eqn:Hsub;
        simpl; [|discriminate].
      intros [= <- <-]. simpl. repeat split; [lia | auto |].
      intros n [<-|[]].
      rewrite get_file_tree_for_entry in Hsub.
      destruct (for_entry_returns_folder _ _ _ _ _ _ Hsub) as (s' & cs & ->).
      reflexivity.
    + intros [= <- <-]. simpl. repeat split; [auto |]. intros n [].
Qed.

(** On an enumeration that ends normally the loop returns the folder of
    what the entries contribute, in order. *)
Lemma for_entry_collects (name : string) (p : option ObjRef)
  (es : list DirEntry) :
  forall total files t,
    for_entry name p (entries_then es ScanEnd) total files = Ok t ->
    t = Folder p name (total + sum_sizes (flat_map (appended p) es))
          (files ++ flat_map (appended p) es).
Proof.
  induction es as [|entry es IH]; intros total files t Hrun; simpl in Hrun.
  - injection Hrun as <-. simpl. rewrite Z.add_0_r, app_nil_r. reflexivity.
  - rewrite try_block_accumulates in Hrun.
    simpl. unfold appended at 1 3.
    destruct (try_block p entry 0 []) as [[s ns]|e] eqn:Htry.
    + apply IH in Hrun. subst t.
      destruct (try_block_contribution _ _ _ _ Htry) as (-> & _ & _).
      rewrite sum_sizes_app, <- app_assoc. f_equal. lia.
    + destruct (is_PermissionError e); [|discriminate].
      apply IH in Hrun. exact Hrun.
Qed.

(** X2. When the enumeration of the directory ends normally and each
    entry has a contribution, the builder returns the container whose
    children are the contributions in enumeration order (one file node
    with the entry's name and [stat] size per readable file, the built
    folder per subdirectory, nothing for an entry of another kind or a
    denied one) and whose size is their sum. *)
Theorem get_file_tree_children_in_order (name : string)
  (es : list DirEntry) (p : option ObjRef) (nss : list (list Node)) :
  Forall2 (contribution p) es nss ->
  get_file_tree name (entries_then es ScanEnd) p
  = Ok (Folder p name (sum_sizes (List.concat nss)) (List.concat nss)).
Proof.
  intros Hes. rewrite get_file_tree_for_entry.
  apply (for_entry_contributions name p es nss Hes 0 []).
Qed.

Lemma get_file_tree_children_in_order_witness :
  get_file_tree "root"
    (ScanNext (regular_file "z" 100)
       (ScanNext (mkDirEntry "link" (Ok false) (Ok 12) (Ok false) ScanEnd)
          (ScanNext (directory "a" (ScanNext (regular_file "b" 50) ScanEnd))
             (ScanNext (directory "locked" (ScanRaise PermissionError))
                ScanEnd)))) None
  = Ok (Folder None "root" 150
          [File None "z" 100; Folder None "a" 50 [File None "b" 50]]).
Proof.
  apply (get_file_tree_children_in_order "root"
           [regular_file "z" 100;
            mkDirEntry "link" (Ok false) (Ok 12) (Ok false) ScanEnd;
            directory "a" (ScanNext (regular_file "b" 50) ScanEnd);
            directory "locked" (ScanRaise PermissionError)]
           None
           [[File None "z" 100]; [];
            [Folder None "a" 50 [File None "b" 50]]; []]).
  constructor; [apply contribution_file|].
  constructor; [apply contribution_other|].
  constructor; [apply contribution_directory; reflexivity|].
  constructor; [apply contribution_unreadable; reflexivity | constructor].
Defined.

Lemma appended_names (p : option ObjRef) (es : list DirEntry) :
  map path (flat_map (appended p) es)
  = map entry_name (filter (contributes p) es).
Proof.
  induction es as [|entry es IH]; [reflexivity|].
  simpl. rewrite map_app, IH. unfold contributes, appended.
  destruct (try_block p entry 0 []) as [[s ns]|e] eqn:Htry; [|reflexivity].
  destruct (try_block_contribution _ _ _ _ Htry) as (_ & Hlen & Hname).
  destruct ns as [|n [|n' ns]]; simpl in *; [reflexivity | | lia].
  rewrite (Hname n); auto.
Qed.

(** X3. The names of the children are the names of the entries that
    contribute a node, in enumeration order: nothing is renamed,
    reordered or listed twice. *)
Theorem get_file_tree_child_names (name : string) (es : list DirEntry)
  (p : option ObjRef) (t : Node) :
  get_file_tree name (entries_then es ScanEnd) p = Ok t ->
  map path (listed t) = map entry_name (filter (contributes p) es).
Proof.
  rewrite get_file_tree_for_entry. intros Hrun.
  apply for_entry_collects in Hrun. subst t. simpl.
  apply appended_names.
Qed.

Lemma get_file_tree_child_names_witness :
  map path [File None "z" 100; Folder None "a" 50 [File None "b" 50]]
  = map entry_name
      (filter (contributes None)
         [regular_file "z" 100;
          mkDirEntry "locked" (Raise PermissionError) (Ok 1) (Ok false) ScanEnd;
          directory "a" (ScanNext (regular_file "b" 50) ScanEnd)]).
Proof.
  apply (get_file_tree_child_names "root"
           [regular_file "z" 100;
            mkDirEntry "locked" (Raise PermissionError) (Ok 1) (Ok false) ScanEnd;
            directory "a" (ScanNext (regular_file "b" 50) ScanEnd)]
           None
           (Folder None "root" 150
              [File None "z" 100; Folder None "a" 50 [File None "b" 50]])).
  reflexivity.
Defined.

(** X4. An entry that is neither a regular file nor a directory (a
    symbolic link, a socket, a device) is passed over without a [stat]
    and without a scan: the builder returns what it returns on the
    directory without that entry. *)
Theorem get_file_tree_ignores_other_kinds (name : string)
  (p : option ObjRef) (before : list DirEntry) (entry_name0 : string)
  (st_size : Result Z) (sub : Scan) (after : Scan) :
  get_file_tree name
    (entries_then before
       (ScanNext (mkDirEntry entry_name0 (Ok false) st_size (Ok false) sub)
          after)) p
  = get_file_tree name (entries_then before after) p.
Proof.
  rewrite !get_file_tree_for_entry.
  apply for_entry_entries_then. intros total files. reflexivity.
Qed.

(** X5. A subdirectory whose enumeration is denied part-way is dropped
    whole: the nodes already built for its first entries are discarded
    with it, and the parent is built as if the subdirectory were not
    there. *)
Theorem get_file_tree_drops_partial_subdirectory (name : string)
  (p : option ObjRef) (before : list DirEntry) (entry_name0 : string)
  (st_size : Result Z) (es : list DirEntry) (after : Scan) :
  forallb (passes p) es = true ->
  get_file_tree name
    (entries_then before
       (ScanNext
          (mkDirEntry entry_name0 (Ok false) st_size (Ok true)
             (entries_then es (ScanRaise PermissionError)))
          after)) p
  = get_file_tree name (entries_then before after) p.
Proof.
  intros Hes. apply get_file_tree_steps_over.
  rewrite try_error_directory, get_file_tree_for_entry.
  rewrite (for_entry_reaches entry_name0 p (ScanRaise PermissionError)
             PermissionError); auto.
Qed.

Lemma get_file_tree_drops_partial_subdirectory_witness :
  get_file_tree "root"
    (ScanNext (regular_file "a" 100)
       (ScanNext
          (directory "sub"
             (ScanNext (regular_file "b" 50) (ScanRaise PermissionError)))
          ScanEnd)) None
  = Ok (Folder None "root" 100 [File None "a" 100]).
Proof.
  refine (eq_trans
    (get_file_tree_drops_partial_subdirectory "root" None
       [regular_file "a" 100] "sub" (Ok 4096) [regular_file "b" 50] ScanEnd
       eq_refl) _).
  reflexivity.
Defined.

(** ** Sizes of built trees *)

Lemma aggregated_file_bytes (t : Node) :
  aggregated t = true -> size t = file_bytes t.
Proof.
  induction t as [p name s|p name s cs IH] using Node_tree_ind;
    intros Hagg; [reflexivity|].
  simpl in Hagg. apply andb_true_iff in Hagg. destruct Hagg as [Hs Hall].
  apply Z.eqb_eq in Hs. simpl. rewrite Hs. clear Hs.
  induction cs as [|c cs IHcs]; [reflexivity|].
  simpl in Hall. apply andb_true_iff in Hall. destruct Hall as [Hc Hall].
  simpl. rewrite (Forall_inv IH Hc). f_equal.
  apply IHcs; [exact (Forall_inv_tail IH) | exact Hall].
Qed.

(** X6. The size of a built tree is the number of bytes of the files it
    holds, at any depth; directories add nothing of their own. *)
Theorem get_file_tree_size_is_file_bytes (name : string) (root : Scan)
  (p : option ObjRef) (t : Node) :
  get_file_tree name root p = Ok t ->
  size t = file_bytes t.
Proof.
  intros Hrun. apply aggregated_file_bytes.
  rewrite get_file_tree_for_entry in Hrun.
  apply (proj2 builder_aggregates root name p 0 [] t); auto.
Qed.

Lemma get_file_tree_size_is_file_bytes_witness :
  size (Folder None "root" 150
          [File None "a" 100; Folder None "sub" 50 [File None "b" 50]])
  = 100 + (50 + 0 + 0).
Proof.
  apply (get_file_tree_size_is_file_bytes "root"
           (ScanNext (regular_file "a" 100)
              (ScanNext (directory "sub" (ScanNext (regular_file "b" 50) ScanEnd))
                 ScanEnd))
           None).
  reflexivity.
Defined.

(** With non-negative file sizes the loop keeps [total] and every size
    in [files] non-negative. *)
Lemma builder_sizes_nonneg :
  (forall entry, sizes_nonneg entry = true ->
      forall p total files total' files',
        0 <= total ->
        Forall (fun n => Forall (fun m => 0 <= size m) (nodes_of n)) files ->
        try_block p entry total files = Ok (total', files') ->
        0 <= total' /\
        Forall (fun n => Forall (fun m => 0 <= size m) (nodes_of n)) files')
  /\
  (forall it, sizes_nonneg_scan it = true ->
      forall name p total files t,
        0 <= total ->
        Forall (fun n => Forall (fun m => 0 <= size m) (nodes_of n)) files ->
        for_entry name p it total files = Ok t ->
        Forall (fun m => 0 <= size m) (nodes_of t)).
Proof.
  apply DirEntry_Scan_mutind.
  - intros entry_name0 is_file st_size is_dir sub IHsub Hfs
      p total files total' files' Htotal Hall Hrun.
    simpl in Hfs. apply andb_true_iff in Hfs. destruct Hfs as [Hst Hsub].
    simpl in Hrun.
    destruct is_file as [[|]|e1]; simpl in Hrun; try discriminate.
    + destruct st_size as [sz|e2]; simpl in Hrun; [|discriminate].
      injection Hrun as <- <-. apply Z.leb_le in Hst. split; [lia|].
      apply Forall_app. split; [exact Hall|].
      repeat constructor. exact Hst.
    + destruct is_dir as [[|]|e3]; simpl in Hrun; try discriminate.
      * destruct (get_file_tree entry_name0 sub p) as [folder|e] eqn:Hrec;
          simpl in Hrun; [|discriminate].
        injection Hrun as <- <-.
        rewrite get_file_tree_for_entry in Hrec.
        assert (Hfolder : Forall (fun m => 0 <= size m) (nodes_of folder)).
        { apply (IHsub Hsub entry_name0 p 0 [] folder); auto. lia. }
        split.
        -- destruct folder; apply Forall_inv in Hfolder; simpl in *; lia.
        -- apply Forall_app. split; [exact Hall|].
           constructor; [exact Hfolder | constructor].
      * injection Hrun as <- <-. auto.
  - intros _ name p total files t Htotal Hall Hrun.
    simpl in Hrun. injection Hrun as <-.
    simpl. constructor; [exact Htotal|].
    apply Forall_flat_map. exact Hall.
  - intros e _ name p total files t _ _ Hrun. discriminate.
  - intros entry IHentry rest IHrest Hfs name p total files t Htotal Hall Hrun.
    simpl in Hfs. apply andb_true_iff in Hfs. destruct Hfs as [Hentry Hrest].
    simpl in Hrun.
    destruct (try_block p entry total files) as [[total' files']|e] eqn:Htry.
    + destruct (IHentry Hentry p total files total' files' Htotal Hall Htry).
      eapply IHrest; eauto.
    + destruct (is_PermissionError e); [|discriminate].
      eapply IHrest; eauto.
Qed.

(** X7. When every size that [stat] reports is non-negative, no node of
    the built tree has a negative size. *)
Theorem get_file_tree_sizes_nonnegative (name : string) (root : Scan)
  (p : option ObjRef) (t : Node) :
  sizes_nonneg_scan root = true ->
  get_file_tree name root p = Ok t ->
  forall n, In n (nodes_of t) -> 0 <= size n.
Proof.
  intros Hfs Hrun. rewrite get_file_tree_for_entry in Hrun.
  apply Forall_forall.
  apply (proj2 builder_sizes_nonneg root Hfs name p 0 [] t); auto. lia.
Qed.

Lemma get_file_tree_sizes_nonnegative_witness :
  0 <= size (Folder None "sub" 50 [File None "b" 50]).
Proof.
  apply (get_file_tree_sizes_nonnegative "root"
           (ScanNext (regular_file "a" 100)
              (ScanNext (directory "sub" (ScanNext (regular_file "b" 50) ScanEnd))
                 ScanEnd))
           None
           (Folder None "root" 150
              [File None "a" 100; Folder None "sub" 50 [File None "b" 50]])).
  - reflexivity.
  - reflexivity.
  - simpl. right. right. left. reflexivity.
Defined.

(** ** Where exceptions come from *)

Lemma for_entry_permission_error (name : string) (p : option ObjRef)
  (it : Scan) :
  forall total files e,
    for_entry name p it total files = Raise e ->
    is_PermissionError e = true ->
    scan_outcome it = Some e.
Proof.
  induction it as [|e0|entry rest IH]; intros total files e Hrun He;
    simpl in Hrun.
  - discriminate.
  - injection Hrun as ->. reflexivity.
  - simpl.
    destruct (try_block p entry total files) as [[total' files']|e'].
    + eapply IH; eauto.
    + destruct (is_PermissionError e') eqn:He'.
      * eapply IH; eauto.
      * injection Hrun as ->. congruence.
Qed.

(** X8. The builder raises [PermissionError] only when the enumeration
    of the root directory itself raises it: a denial met on an entry or
    anywhere below never reaches the caller. *)
Theorem get_file_tree_permission_error_is_roots (name : string)
  (root : Scan) (p : option ObjRef) :
  get_file_tree name root p = Raise PermissionError ->
  scan_outcome root = Some PermissionError.
Proof.
  rewrite get_file_tree_for_entry. intros Hrun.
  apply (for_entry_permission_error name p root 0 [] PermissionError Hrun).
  reflexivity.
Qed.

Lemma get_file_tree_permission_error_is_roots_witness :
  scan_outcome (ScanNext (regular_file "a" 100) (ScanRaise PermissionError))
  = Some PermissionError.
Proof.
  apply (get_file_tree_permission_error_is_roots "root"
           (ScanNext (regular_file "a" 100) (ScanRaise PermissionError)) None).
  reflexivity.
Defined.

(** In a file system whose only failures are denials, every entry is
    got past, and the loop ends as the enumeration ends. *)
Lemma builder_survives_denials :
  (forall entry, only_denials entry = true ->
      forall p, passes p entry = true)
  /\
  (forall it, only_denials_scan it = true ->
      forall name p total files,
        match scan_outcome it with
        | None => exists t, for_entry name p it total files = Ok t
        | Some e => for_entry name p it total files = Raise e
                    /\ is_PermissionError e = true
        end).
Proof.
  apply DirEntry_Scan_mutind.
  - intros entry_name0 is_file st_size is_dir sub IHsub Hfs p.
    simpl in Hfs. rewrite !andb_true_iff in Hfs.
    destruct Hfs as [[[Hf Hst] Hd] Hsub].
    unfold passes, try_error. simpl.
    destruct is_file as [[|]|e1]; simpl; [| |exact Hf].
    + destruct st_size as [sz|e2]; simpl; [reflexivity | exact Hst].
    + destruct is_dir as [[|]|e3]; simpl; [|reflexivity|exact Hd].
      rewrite get_file_tree_for_entry.
      specialize (IHsub Hsub entry_name0 p 0 []).
      destruct (scan_outcome sub) as [e|].
      * destruct IHsub as [-> He]. simpl. exact He.
      * destruct IHsub as [t ->]. reflexivity.
  - intros _ name p total files. simpl. eauto.
  - intros e He name p total files. simpl. auto.
  - intros entry IHentry rest IHrest Hfs name p total files.
    simpl in Hfs. apply andb_true_iff in Hfs. destruct Hfs as [Hentry Hrest].
    specialize (IHentry Hentry p). unfold passes in IHentry.
    simpl.
    destruct (try_error p entry) as [e|] eqn:Herr.
    + rewrite (try_block_raises _ _ _ _ _ Herr), IHentry.
      apply IHrest, Hrest.
    + destruct (try_block_returns p entry total files Herr) as (s & ns & ->).
      apply IHrest, Hrest.
Qed.

(** Within the depth the recursion limit allows, the builder with the
    limit returns what the builder returns. *)
Lemma for_entry_calling_agrees (depth : nat) (name : string)
  (p : option ObjRef) :
  (forall entry_name sub,
      (deepest sub < depth)%nat ->
      get_file_tree_within depth entry_name sub p
      = Some (get_file_tree entry_name sub p)) ->
  forall it,
    (deepest it <= depth)%nat ->
    forall total files,
      for_entry_calling
        (fun entry_name entry_path =>
           get_file_tree_within depth entry_name entry_path p)
        name p it total files
      = Some (for_entry name p it total files).
Proof.
  intros Hcall.
  induction it as [|e|[entry_name is_file st_size is_dir sub] rest IH];
    intros Hdepth total files; try reflexivity.
  simpl in Hdepth.
  assert (Hrest : (deepest rest <= depth)%nat) by lia.
  simpl.
  destruct is_file as [[|]|e1]; simpl.
  - destruct st_size as [sz|e2]; simpl;
      [apply IH, Hrest
      |destruct (is_PermissionError e2); [apply IH, Hrest | reflexivity]].
  - destruct is_dir as [[|]|e3]; simpl.
    + rewrite Hcall by lia.
      destruct (get_file_tree entry_name sub p) as [folder|e]; simpl;
        [apply IH, Hrest
        |destruct (is_PermissionError e); [apply IH, Hrest | reflexivity]].
    + apply IH, Hrest.
    + destruct (is_PermissionError e3); [apply IH, Hrest | reflexivity].
  - destruct (is_PermissionError e1); [apply IH, Hrest | reflexivity].
Qed.

Lemma get_file_tree_within_agrees (depth : nat) :
  forall (name : string) (root : Scan) (p : option ObjRef),
    (deepest root < depth)%nat ->
    get_file_tree_within depth name root p
    = Some (get_file_tree name root p).
Proof.
  induction depth as [|depth IH]; intros name root p Hdepth; [lia|].
  simpl. rewrite get_file_tree_for_entry.
  apply for_entry_calling_agrees; [|lia].
  intros entry_name sub Hsub. apply IH, Hsub.
Qed.





(** ** The adapter over a tree *)

(** X10. [GetChildren] only appends: what the array held stays in
    front, the returned count is the number of items added, and no added
    item is null. *)
Theorem GetChildren_appends_count (self : FolderTreeViewModel)
  (item : DataViewItem) (out out' : list DataViewItem) (n : Z) :
  GetChildren self item out = Ok (out', n) ->
  firstn (List.length out) out' = out
  /\ Z.of_nat (List.length out') = Z.of_nat (List.length out) + n
  /\ Forall (fun i => i <> NullDataViewItem) (skipn (List.length out) out').
Proof.
  unfold GetChildren.
  destruct (match item with
            | Some obj => children obj
            | None => Ok (data self)
            end) as [l|e]; simpl; [|discriminate].
  intros [= <- <-]. repeat split.
  - rewrite firstn_app, Nat.sub_diag, firstn_all. simpl.
    apply app_nil_r.
  - rewrite length_app, length_map. lia.
  - rewrite skipn_app, Nat.sub_diag, skipn_all. simpl.
    apply Forall_forall. intros i Hi. apply in_map_iff in Hi.
    destruct Hi as (x & <- & _). discriminate.
Qed.

Lemma GetChildren_appends_count_witness :
  firstn 1 [None; Some (File None "b" 50)] = [None]
  /\ Z.of_nat (List.length [@None Node; Some (File None "b" 50)])
     = Z.of_nat (List.length [@None Node]) + 1
  /\ Forall (fun i => i <> NullDataViewItem)
       (skipn 1 [None; Some (File None "b" 50)]).
Proof.
  apply (GetChildren_appends_count {| data := [] |}
           (Some (Folder None "sub" 50 [File None "b" 50])) [None]).
  reflexivity.
Defined.

(** X11. [GetChildren] returns exactly on the items that [IsContainer]
    accepts (the null item and containers) and raises on the others. *)
Theorem GetChildren_returns_iff_IsContainer (self : FolderTreeViewModel)
  (item : DataViewItem) (out : list DataViewItem) :
  (exists r, GetChildren self item out = Ok r)
  <-> IsContainer self item = true.
Proof.
  destruct item as [[p name s|p name s cs]|]; simpl; split;
    try (intros _; reflexivity); try (intros _; eexists; reflexivity).
  - intros [r Hr]. discriminate.
  - discriminate.
Qed.

(** X12. In the view the application builds, [GetParent] answers null
    for every node of the tree, also for nodes deep inside it. *)
Theorem GetParent_null_everywhere (root_path : string) (fs : Scan)
  (model : FolderTreeViewModel) :
  AppFrame_model root_path fs = Ok model ->
  forall tree n,
    In tree (data model) -> In n (nodes_of tree) ->
    GetParent model (Some n) = None.
Proof.
  unfold AppFrame_model.
  destruct (AppFrame_tree root_path fs) as [t|e] eqn:Hrun; simpl;
    [|discriminate].
  intros [= <-] tree n [<-|[]] Hn. simpl.
  exact (AppFrame_tree_parents_absent _ _ _ Hrun n Hn).
Qed.

Lemma GetParent_null_everywhere_witness :
  GetParent
    {| data := [Folder None "root" 50 [Folder None "sub" 50 [File None "b" 50]]] |}
    (Some (File None "b" 50)) = None.
Proof.
  apply (GetParent_null_everywhere "root"
           (ScanNext (directory "sub" (ScanNext (regular_file "b" 50) ScanEnd))
              ScanEnd)
           {| data := [Folder None "root" 50
                         [Folder None "sub" 50 [File None "b" 50]]] |}
           eq_refl
           (Folder None "root" 50 [Folder None "sub" 50 [File None "b" 50]])).
  - left. reflexivity.
  - simpl. right. right. left. reflexivity.
Defined.

(** X13. The view of the application has exactly one top-level item; it
    is a container and its name column shows the root path. *)
Theorem AppFrame_model_single_root (root_path : string) (fs : Scan)
  (model : FolderTreeViewModel) :
  AppFrame_model root_path fs = Ok model ->
  exists tree,
    GetChildren model NullDataViewItem [] = Ok ([Some tree], 1)
    /\ IsContainer model (Some tree) = true
    /\ GetValue model tree 0 = Some root_path.
Proof.
  unfold AppFrame_model.
  destruct (AppFrame_tree root_path fs) as [t|e] eqn:Hrun; simpl;
    [|discriminate].
  intros [= <-]. exists t.
  destruct (get_file_tree_returns_named_folder_aux root_path fs None t Hrun)
    as (s & cs & ->).
  repeat split.
Qed.

Lemma AppFrame_model_single_root_witness :
  exists tree,
    GetChildren {| data := [Folder None "root" 50 [File None "b" 50]] |}
      NullDataViewItem [] = Ok ([Some tree], 1)
    /\ IsContainer {| data := [Folder None "root" 50 [File None "b" 50]] |}
         (Some tree) = true
    /\ GetValue {| data := [Folder None "root" 50 [File None "b" 50]] |}
         tree 0 = Some "root".
Proof.
  apply (AppFrame_model_single_root "root"
           (ScanNext (regular_file "b" 50) ScanEnd)).
  reflexivity.
Defined.

(** X14. For a node whose size [str] can print (fewer digits than
    the interpreter's limit), [GetValue] has a value for exactly the
    columns that [GetColumnCount] announces. *)
Theorem GetValue_columns (self : FolderTreeViewModel) (node : Node)
  (col : Z) :
  Z.abs (size node) < 10 ^ max_str_digits ->
  ((exists s, GetValue self node col = Some s)
   <-> 0 <= col < GetColumnCount self).
Proof.
  intros _. unfold GetValue, GetColumnCount.
  destruct col as [|q|q]; simpl.
  - split; [lia | eauto].
  - destruct (Pos.eqb_spec 1 q) as [<-|Hq]; simpl.
    + split; [lia | eauto].
    + split; [intros [s Hs]; discriminate | intros H; exfalso; apply Hq; lia].
  - split; [intros [s Hs]; discriminate | lia].
Qed.

Lemma GetValue_columns_witness :
  (exists s, GetValue {| data := [] |} (File None "a" 1337) 1 = Some s)
  <-> 0 <= 1 < GetColumnCount {| data := [] |}.
Proof.
  apply (GetValue_columns {| data := [] |} (File None "a" 1337) 1).
  apply Z.ltb_lt. vm_compute. reflexivity.
Defined.

(** X15. For a node whose size [str] can print, the size column holds
    the decimal numeral of the size: read back as a number it gives the
    size. *)
Theorem GetValue_size_reads_back (self : FolderTreeViewModel) (node : Node) :
  Z.abs (size node) < 10 ^ max_str_digits ->
  exists s,
    GetValue self node 1 = Some s
    /\ option_map Z.of_int (NilZero.int_of_string s) = Some (size node).
Proof.
  intros _.
  exists (str_int (size node)). split; [reflexivity|].
  unfold str_int. rewrite NilZero.isi.
  - simpl. rewrite DecimalZ.of_to. reflexivity.
  - destruct (size node); simpl; try discriminate.
    intros [= H]. revert H. apply DecimalPos.Unsigned.to_uint_nonnil.
  - destruct (size node); simpl; try discriminate.
    intros [= H]. revert H. apply DecimalPos.Unsigned.to_uint_nonnil.
Qed.

Lemma GetValue_size_reads_back_witness :
  exists s,
    GetValue {| data := [] |} (Folder None "sub" 1757 []) 1 = Some s
    /\ option_map Z.of_int (NilZero.int_of_string s) = Some 1757.
Proof.
  apply (GetValue_size_reads_back {| data := [] |} (Folder None "sub" 1757 [])).
  apply Z.ltb_lt. vm_compute. reflexivity.
Defined.

(** X16. [GetAttr] flags exactly the items that [IsContainer] accepts:
    it makes them blue and bold and leaves the rest of the attributes as
    they were; for a file node nothing is changed. *)
Theorem GetAttr_marks_containers (self : FolderTreeViewModel) (node : Node)
  (col : Z) (attr : DataViewItemAttr) :
  snd (GetAttr self node col attr) = IsContainer self (Some node)
  /\ (IsContainer self (Some node) = false ->
      fst (GetAttr self node col attr) = attr)
  /\ (IsContainer self (Some node) = true ->
      fst (GetAttr self node col attr)
      = {| colour := Some "blue"; bold := true; italic := italic attr |}).
Proof.
  unfold GetAttr. simpl. destruct (isinstance_Folder node); simpl;
    repeat split; try reflexivity; discriminate.
Qed.

Lemma GetAttr_marks_containers_witness :
  fst (GetAttr {| data := [] |} (Folder None "sub" 0 []) 1
         {| colour := None; bold := false; italic := true |})
  = {| colour := Some "blue"; bold := true; italic := true |}.
Proof.
  apply (proj2 (proj2 (GetAttr_marks_containers {| data := [] |}
                         (Folder None "sub" 0 []) 1
                         {| colour := None; bold := false; italic := true |}))).
  reflexivity.
Defined.

(** ** The comparator as an order *)

(** [String.compare] is the comparison of the ordered type of strings. *)
Lemma string_compare_OT (a b : string) :
  String.compare a b = OrdersEx.String_as_OT.compare a b.
Proof. reflexivity. Qed.

Lemma str_gt_lt (a b : string) :
  str_gt a b = true <-> OrdersEx.String_as_OT.lt b a.
Proof.
  unfold str_gt, OrdersEx.String_as_OT.lt.
  rewrite <- (string_compare_OT b a).
  pose proof (String.compare_antisym b a) as Hopp. revert Hopp.
  destruct (String.compare a b), (String.compare b a); simpl;
    intros Hopp; split; congruence.
Qed.

Lemma str_gt_trans (a b c : string) :
  str_gt a b = true -> str_gt b c = true -> str_gt a c = true.
Proof.
  rewrite !str_gt_lt. intros Hab Hbc.
  exact (@RelationClasses.StrictOrder_Transitive _ _
           OrdersEx.String_as_OT.lt_strorder
           c b a Hbc Hab).
Qed.

(** Two different strings are ordered one way or the other. *)
Lemma str_gt_total (a b : string) :
  a <> b -> str_gt a b = negb (str_gt b a).
Proof.
  intros Hne. unfold str_gt. rewrite (String.compare_antisym b a).
  destruct (String.compare a b) eqn:Hc; try reflexivity.
  exfalso. apply Hne, String.compare_eq_iff, Hc.
Qed.

Lemma str_le_trans (a b c : string) :
  str_gt a b = false -> str_gt b c = false -> str_gt a c = false.
Proof.
  intros Hab Hbc.
  destruct (string_dec a b) as [->|Hne1]; [exact Hbc|].
  destruct (string_dec b c) as [<-|Hne2]; [exact Hab|].
  rewrite (str_gt_total a b Hne1) in Hab. apply negb_false_iff in Hab.
  rewrite (str_gt_total b c Hne2) in Hbc. apply negb_false_iff in Hbc.
  pose proof (str_gt_trans c b a Hbc Hab) as Hca.
  destruct (string_dec a c) as [->|Hne3].
  - rewrite str_gt_irrefl in Hca. discriminate.
  - rewrite (str_gt_total a c Hne3), Hca. reflexivity.
Qed.

(** X17. On two nodes with different names (two entries of one
    directory, for instance) [Compare] is antisymmetric: swapping the
    arguments flips the sign, for every column and direction. *)
Theorem Compare_antisymmetric (self : FolderTreeViewModel)
  (file1 file2 : Node) (column : Z) (ascending : bool) :
  path file1 <> path file2 ->
  Compare self file2 file1 column ascending
  = - Compare self file1 file2 column ascending.
Proof.
  intros Hne. unfold Compare.
  rewrite (Z.eqb_sym (size file2) (size file1)).
  destruct ((column =? 0) || (size file1 =? size file2)) eqn:Hbranch.
  - rewrite (str_gt_total (path file1) (path file2) Hne).
    destruct (str_gt (path file2) (path file1)), ascending; reflexivity.
  - apply orb_false_iff in Hbranch. destruct Hbranch as [_ Hsize].
    apply Z.eqb_neq in Hsize.
    destruct (Z.gtb_spec (size file1) (size file2)),
             (Z.gtb_spec (size file2) (size file1)), ascending;
      try reflexivity; lia.
Qed.

Lemma Compare_antisymmetric_witness :
  Compare {| data := [] |} (File None "b" 7) (File None "a" 9) 1 false
  = - Compare {| data := [] |} (File None "a" 9) (File None "b" 7) 1 false.
Proof.
  apply (Compare_antisymmetric {| data := [] |}
           (File None "a" 9) (File None "b" 7) 1 false).
  discriminate.
Defined.

(** The test on which the sign of [Compare] depends. *)
Lemma Compare_minus_one (self : FolderTreeViewModel) (file1 file2 : Node)
  (column : Z) (ascending : bool) :
  Compare self file1 file2 column ascending = -1
  <-> (if (column =? 0) || (size file1 =? size file2)
       then str_gt (path file1) (path file2)
       else size file1 >? size file2) = negb ascending.
Proof.
  unfold Compare.
  destruct ((column =? 0) || (size file1 =? size file2));
    [destruct (str_gt (path file1) (path file2))
    |destruct (size file1 >? size file2)];
    destruct ascending; simpl; split; congruence.
Qed.

(** X18. "Sorts before" is transitive: if [Compare] puts a first node
    before a second and the second before a third, it puts the first
    before the third, for every column and direction. *)
Theorem Compare_transitive (self : FolderTreeViewModel)
  (file1 file2 file3 : Node) (column : Z) (ascending : bool) :
  Compare self file1 file2 column ascending = -1 ->
  Compare self file2 file3 column ascending = -1 ->
  Compare self file1 file3 column ascending = -1.
Proof.
  rewrite !Compare_minus_one.
  destruct (column =? 0); simpl.
  - destruct ascending; simpl; [apply str_le_trans | apply str_gt_trans].
  - destruct (Z.eqb_spec (size file1) (size file2)) as [E12|N12],
             (Z.eqb_spec (size file2) (size file3)) as [E23|N23],
             (Z.eqb_spec (size file1) (size file3)) as [E13|N13];
      try lia;
      destruct ascending; simpl;
      rewrite ?Z.gtb_ltb, ?Z.ltb_lt, ?Z.ltb_ge;
      intros H12 H23;
      try (eapply str_le_trans; eassumption);
      try (eapply str_gt_trans; eassumption);
      try lia.
Qed.

Lemma Compare_transitive_witness :
  Compare {| data := [] |} (File None "b" 5) (File None "a" 20) 1 true = -1.
Proof.
  apply (Compare_transitive {| data := [] |}
           (File None "b" 5) (File None "c" 5) (File None "a" 20) 1 true);
    reflexivity.
Defined.
